(** * docs/conf.py: the Sphinx build configuration of the LanceDB C API

    The module is a straight-line sequence of module-level statements: one
    [import] and fourteen assignments.  Each statement is embedded as a
    computation over the state of the interpreter process (the [os.environ]
    mapping and the namespace the module body runs in), and the module body
    is the list of those statements, in source order. *)

From stdpp Require Import gmap strings list fin_maps.

Local Open Scope string_scope.
Local Set Warnings "-register-all".

(** ** Python objects *)

Module Py.

(** The objects the module builds or touches.  [VEnviron] is the
    [os.environ] mapping object and [VEnvironGet] its bound method
    [os.environ.get]; a dict keeps its entries in insertion order. *)
Inductive value : Type :=
| VStr (s : string)
| VInt (z : Z)
| VBool (b : bool)
| VNone
| VList (items : list value)
| VTuple (items : list value)
| VDict (entries : list (string * value))
| VModule (name : string)
| VEnviron
| VEnvironGet.

Inductive exn : Type :=
| NameError (name : string)
| AttributeError (attr : string)
| TypeError (what : string).

Inductive result (A : Type) : Type :=
| Ok (a : A)
| Raise (e : exn).
Arguments Ok {A} a.
Arguments Raise {A} e.

(** The state a module body runs in: the [os.environ] mapping and the
    namespace of the module, as a standard interpreter hands it to the body.
    The builtins are the interpreter's own and are no part of the state. *)
Record process : Type := Process {
  environ : gmap string string;
  globals : gmap string value
}.

(** State and exception monad of the interpreter. *)
Definition py (A : Type) : Type := process → result (A * process).

Definition ret {A : Type} (a : A) : py A := λ p, Ok (a, p).

Definition bind {A B : Type} (c : py A) (k : A → py B) : py B :=
  λ p, match c p with
       | Ok (a, p') => k a p'
       | Raise e => Raise e
       end.

Definition raise {A : Type} (e : exn) : py A := λ _, Raise e.

#[global] Instance py_ret : MRet py := @ret.
#[global] Instance py_bind : MBind py := λ A B k c, bind c k.

(** [x] as an expression: a lookup in the module namespace.  The names the
    module reads, [os] and [xml_dir], are no builtins, so a miss in the
    namespace is a [NameError]. *)
Definition load_name (x : string) : py value :=
  λ p, match globals p !! x with
       | Some v => Ok (v, p)
       | None => Raise (NameError x)
       end.

(** [x = v]: (re)binds [x] in the module namespace. *)
Definition store_name (x : string) (v : value) : py unit :=
  λ p, Ok (tt, Process (environ p) (<[x := v]> (globals p))).

(** [o.attr], for the attributes the module reaches. *)
Definition getattr (o : value) (attr : string) : py value :=
  match o with
  | VModule "os" =>
      if decide (attr = "environ") then ret VEnviron
      else raise (AttributeError attr)
  | VEnviron =>
      if decide (attr = "get") then ret VEnvironGet
      else raise (AttributeError attr)
  | _ => raise (AttributeError attr)
  end.

(** [f(args)].  The only callable is [os.environ.get(key[, default])]: the
    value of [key] in the environment when it is there, [default]
    (or [None]) otherwise. *)
Definition call (f : value) (args : list value) : py value :=
  match f with
  | VEnvironGet =>
      match args with
      | [VStr key; default] =>
          λ p, match environ p !! key with
               | Some v => Ok (VStr v, p)
               | None => Ok (default, p)
               end
      | [VStr key] =>
          λ p, match environ p !! key with
               | Some v => Ok (VStr v, p)
               | None => Ok (VNone, p)
               end
      | _ => raise (TypeError "get")
      end
  | _ => raise (TypeError "object is not callable")
  end.

(** ** Dicts *)

(** [d[k] = v]: replaces the value of an existing key in place, appends a new
    key at the end. *)
Fixpoint dict_setitem (k : string) (v : value) (d : list (string * value))
  : list (string * value) :=
  match d with
  | [] => [(k, v)]
  | (k', v') :: d' =>
      if decide (k' = k) then (k, v) :: d' else (k', v') :: dict_setitem k v d'
  end.

Fixpoint dict_getitem (k : string) (d : list (string * value)) : option value :=
  match d with
  | [] => None
  | (k', v') :: d' => if decide (k' = k) then Some v' else dict_getitem k d'
  end.

(** A dict display [{k1: v1, ..., kn: vn}]: the items are stored left to
    right into an empty dict. *)
Definition dict_display (items : list (string * value)) : value :=
  VDict (foldl (λ d kv, dict_setitem kv.1 kv.2 d) [] items).

(** ** Statements *)

Inductive stmt : Type :=
| Import (module : string)
| Assign (target : string) (rhs : py value).

Definition target_of (s : stmt) : string :=
  match s with
  | Import m => m
  | Assign x _ => x
  end.

(** [import m] binds [m] to the module object; the one module imported is
    [os], which a standard interpreter always finds. *)
Definition exec_stmt (s : stmt) : py unit :=
  match s with
  | Import m => store_name m (VModule m)
  | Assign x rhs => v ← rhs; store_name x v
  end.

Fixpoint exec_stmts (body : list stmt) : py unit :=
  match body with
  | [] => ret tt
  | s :: rest => _ ← exec_stmt s; exec_stmts rest
  end.

End Py.

Import Py.

(** ** The module body *)

Module Conf.

(** [os.environ.get('DOXYGEN_XML_DIR', '../xml')] *)
Definition xml_dir_rhs : py value :=
  os ← load_name "os";
  env ← getattr os "environ";
  get ← getattr env "get";
  call get [VStr "DOXYGEN_XML_DIR"; VStr "../xml"].

(** [{"LanceDB": xml_dir}] *)
Definition breathe_projects_rhs : py value :=
  xml_dir ← load_name "xml_dir";
  ret (dict_display [("LanceDB", xml_dir)]).

Definition conf_py : list stmt := [
  Import "os";
  Assign "project" (ret (VStr "LanceDB C API"));
  Assign "copyright" (ret (VStr "2025, The LanceDB Authors"));
  Assign "author" (ret (VStr "The LanceDB Authors"));
  Assign "release" (ret (VStr "0.1.0"));
  Assign "extensions" (ret (VList [
    VStr "breathe";
    VStr "sphinx.ext.autodoc";
    VStr "sphinx.ext.intersphinx";
    VStr "sphinx.ext.viewcode"]));
  Assign "xml_dir" xml_dir_rhs;
  Assign "breathe_projects" breathe_projects_rhs;
  Assign "breathe_default_project" (ret (VStr "LanceDB"));
  Assign "templates_path" (ret (VList [VStr "_templates"]));
  Assign "exclude_patterns" (ret (VList [
    VStr "_build"; VStr "Thumbs.db"; VStr ".DS_Store"]));
  Assign "html_theme" (ret (VStr "sphinx_rtd_theme"));
  Assign "html_static_path" (ret (VList [VStr "_static"]));
  Assign "html_theme_options" (ret (dict_display [
    ("navigation_depth", VInt 4);
    ("collapse_navigation", VBool false);
    ("sticky_navigation", VBool true);
    ("includehidden", VBool true)]));
  Assign "intersphinx_mapping" (ret (dict_display [
    ("python", VTuple [VStr "https://docs.python.org/3"; VNone])]))
].

(** Load: running the module body in a process. *)
Definition load : py unit := exec_stmts conf_py.

(** The state of the process after the first [n] statements. *)
Definition load_upto (n : nat) : py unit := exec_stmts (take n conf_py).

(** ** The state Load leaves behind *)

(** The value of [os.environ.get('DOXYGEN_XML_DIR', '../xml')] in an
    environment. *)
Definition resolved_xml_dir (env : gmap string string) : value :=
  match env !! "DOXYGEN_XML_DIR" with
  | Some dir => VStr dir
  | None => VStr "../xml"
  end.

(** The objects the statements of the module bind, in source order. *)
Definition bindings (env : gmap string string) : list (string * value) := [
  ("os", VModule "os");
  ("project", VStr "LanceDB C API");
  ("copyright", VStr "2025, The LanceDB Authors");
  ("author", VStr "The LanceDB Authors");
  ("release", VStr "0.1.0");
  ("extensions", VList [
    VStr "breathe";
    VStr "sphinx.ext.autodoc";
    VStr "sphinx.ext.intersphinx";
    VStr "sphinx.ext.viewcode"]);
  ("xml_dir", resolved_xml_dir env);
  ("breathe_projects", VDict [("LanceDB", resolved_xml_dir env)]);
  ("breathe_default_project", VStr "LanceDB");
  ("templates_path", VList [VStr "_templates"]);
  ("exclude_patterns", VList [
    VStr "_build"; VStr "Thumbs.db"; VStr ".DS_Store"]);
  ("html_theme", VStr "sphinx_rtd_theme");
  ("html_static_path", VList [VStr "_static"]);
  ("html_theme_options", VDict [
    ("navigation_depth", VInt 4);
    ("collapse_navigation", VBool false);
    ("sticky_navigation", VBool true);
    ("includehidden", VBool true)]);
  ("intersphinx_mapping", VDict [
    ("python", VTuple [VStr "https://docs.python.org/3"; VNone])])
].

(** Storing a list of bindings into a namespace, first to last. *)
Definition store_all (g : gmap string value) (l : list (string * value))
  : gmap string value :=
  foldl (λ g kv, <[kv.1 := kv.2]> g) g l.

(** The names the module body binds. *)
Definition targets : list string := target_of <$> conf_py.

End Conf.

Import Conf.

(** * Properties *)

(** ** The interpreter *)

Section Interpreter.

Implicit Types (p : process) (g : gmap string value) (env : gmap string string).

Lemma bind_unfold {A B : Type} (c : py A) (k : A → py B) p :
  (c ≫= k) p =
  match c p with
  | Ok (a, p') => k a p'
  | Raise e => Raise e
  end.
Proof. reflexivity. Qed.

Lemma exec_stmts_cons s rest p :
  exec_stmts (s :: rest) p =
  match exec_stmt s p with
  | Ok (_, p') => exec_stmts rest p'
  | Raise e => Raise e
  end.
Proof. reflexivity. Qed.

Lemma exec_stmts_snoc body s p :
  exec_stmts (body ++ [s]) p =
  match exec_stmts body p with
  | Ok (_, p') => exec_stmt s p'
  | Raise e => Raise e
  end.
Proof.
  revert p. induction body as [|s0 body IH]; intros p.
  - cbn [app exec_stmts]. rewrite bind_unfold. unfold ret.
    destruct (exec_stmt s p) as [[[] p']|e]; reflexivity.
  - cbn [app]. rewrite !exec_stmts_cons.
    destruct (exec_stmt s0 p) as [[_ p']|e]; [apply IH | reflexivity].
Qed.

Lemma exec_import m env g :
  exec_stmt (Import m) (Process env g) =
  Ok (tt, Process env (<[m := VModule m]> g)).
Proof. reflexivity. Qed.

Lemma exec_assign x rhs v env g :
  rhs (Process env g) = Ok (v, Process env g) →
  exec_stmt (Assign x rhs) (Process env g) =
  Ok (tt, Process env (<[x := v]> g)).
Proof. intros Hrhs. cbn [exec_stmt]. by rewrite bind_unfold, Hrhs. Qed.

End Interpreter.

(** ** Namespaces as stores of bindings *)

Section StoreAll.

Implicit Types (g : gmap string value) (l : list (string * value)).

Lemma store_all_snoc g l x v :
  store_all g (l ++ [(x, v)]) = <[x := v]> (store_all g l).
Proof. unfold store_all. by rewrite foldl_app. Qed.

(** The bindings win over what the namespace held, the later ones over the
    earlier ones. *)
Lemma store_all_union g l :
  store_all g l = list_to_map (reverse l) ∪ g.
Proof.
  revert g. induction l as [|[x v] l IH]; intros g.
  - cbn. by rewrite (left_id_L ∅ (∪)).
  - cbn [store_all foldl]. fold (store_all (<[x := v]> g) l). rewrite IH.
    rewrite reverse_cons, list_to_map_app. cbn [list_to_map foldr].
    rewrite <- (assoc_L (∪)). f_equal. cbn.
    by rewrite insert_empty, <- insert_union_singleton_l.
Qed.

Lemma store_all_idemp g l :
  store_all (store_all g l) l = store_all g l.
Proof.
  rewrite !store_all_union, (assoc_L (∪)). f_equal. apply (idemp_L (∪)).
Qed.

Lemma store_all_lookup_other g l x :
  x ∉ l.*1 → store_all g l !! x = g !! x.
Proof.
  intros Hx. rewrite store_all_union. apply lookup_union_r.
  apply not_elem_of_list_to_map_1. by rewrite fmap_reverse, elem_of_reverse.
Qed.

(** A name stored once holds the object stored with it. *)
Lemma store_all_lookup g l x v :
  NoDup l.*1 → (x, v) ∈ l → store_all g l !! x = Some v.
Proof.
  intros Hnd Hin. rewrite store_all_union. apply lookup_union_Some_l.
  apply elem_of_list_to_map_1.
  - by rewrite fmap_reverse, reverse_Permutation.
  - by apply elem_of_reverse.
Qed.

Lemma store_all_take_lookup g l i j x v :
  NoDup l.*1 → l !! i = Some (x, v) → i < j →
  store_all g (take j l) !! x = Some v.
Proof.
  intros Hnd Hi Hij. apply store_all_lookup.
  - rewrite fmap_take. eapply sublist_NoDup; [done | apply sublist_take].
  - apply list_elem_of_lookup. exists i. by rewrite lookup_take_lt.
Qed.

End StoreAll.

(** ** Running the module body *)

Section Load.

Implicit Types (g : gmap string value) (env : gmap string string).

Lemma targets_bindings env : (bindings env).*1 = targets.
Proof. reflexivity. Qed.

Lemma targets_NoDup : NoDup targets.
Proof. apply (bool_decide_unpack (NoDup targets)). by vm_compute. Qed.

Lemma bindings_NoDup env : NoDup (bindings env).*1.
Proof. rewrite targets_bindings. apply targets_NoDup. Qed.

Lemma length_conf_py : length conf_py = 15.
Proof. reflexivity. Qed.

Lemma length_bindings env : length (bindings env) = length conf_py.
Proof. reflexivity. Qed.

(** The right-hand side of [xml_dir = ...] needs [os] to be the imported
    module and nothing else. *)
Lemma xml_dir_rhs_ok env g :
  g !! "os" = Some (VModule "os") →
  xml_dir_rhs (Process env g) = Ok (resolved_xml_dir env, Process env g).
Proof.
  intros Hos. unfold xml_dir_rhs. rewrite bind_unfold.
  unfold load_name. cbn [globals]. rewrite Hos.
  change (getattr (VModule "os") "environ") with (ret VEnviron).
  rewrite bind_unfold. unfold ret at 1.
  change (getattr VEnviron "get") with (ret VEnvironGet).
  rewrite bind_unfold. unfold ret at 1.
  unfold resolved_xml_dir. cbn.
  by destruct (env !! "DOXYGEN_XML_DIR").
Qed.

(** The right-hand side of [breathe_projects = ...] needs [xml_dir] to be
    bound. *)
Lemma breathe_projects_rhs_ok env g v :
  g !! "xml_dir" = Some v →
  breathe_projects_rhs (Process env g) =
  Ok (VDict [("LanceDB", v)], Process env g).
Proof.
  intros Hx. unfold breathe_projects_rhs. rewrite bind_unfold.
  unfold load_name. cbn [globals]. by rewrite Hx.
Qed.

(** One statement: statement [n] of the module, run after the [n] before
    it, stores binding [n]. *)
Lemma exec_nth n s x v env g :
  conf_py !! n = Some s →
  bindings env !! n = Some (x, v) →
  exec_stmt s (Process env (store_all g (take n (bindings env)))) =
  Ok (tt, Process env (<[x := v]> (store_all g (take n (bindings env))))).
Proof.
  intros Hs Hb.
  assert (Hos : 0 < n → store_all g (take n (bindings env)) !! "os"
                        = Some (VModule "os")).
  { apply store_all_take_lookup; [apply bindings_NoDup | done]. }
  assert (Hxml : 6 < n → store_all g (take n (bindings env)) !! "xml_dir"
                         = Some (resolved_xml_dir env)).
  { apply store_all_take_lookup; [apply bindings_NoDup | done]. }
  do 15 (destruct n as [|n];
    [ injection Hs as <-; injection Hb as <- <-;
      first [ apply exec_import
            | by apply exec_assign
            | apply exec_assign, xml_dir_rhs_ok, Hos; lia
            | apply exec_assign, breathe_projects_rhs_ok, Hxml; lia ]
    | ]).
  discriminate Hs.
Qed.

(** The state after the first [n] statements, for every [n]: nothing is
    raised, [os.environ] is as it was, and the namespace has the first [n]
    bindings stored into it. *)
Lemma load_upto_ok n env g :
  load_upto n (Process env g) =
  Ok (tt, Process env (store_all g (take n (bindings env)))).
Proof.
  unfold load_upto. induction n as [|n IH]; [reflexivity|].
  destruct (conf_py !! n) as [s|] eqn:Hs.
  - destruct (bindings env !! n) as [[x v]|] eqn:Hb.
    + rewrite (take_S_r _ _ _ Hs), (take_S_r _ _ _ Hb).
      rewrite exec_stmts_snoc, IH, store_all_snoc. by apply exec_nth.
    + apply lookup_ge_None in Hb. apply lookup_lt_Some in Hs.
      rewrite length_bindings in Hb. lia.
  - apply lookup_ge_None in Hs.
    rewrite !take_ge by (rewrite ?length_bindings; lia).
    rewrite !take_ge in IH by (rewrite ?length_bindings; lia). done.
Qed.

Lemma load_ok env g :
  load (Process env g) = Ok (tt, Process env (store_all g (bindings env))).
Proof.
  change load with (load_upto (length conf_py)). rewrite load_upto_ok.
  by rewrite <- (length_bindings env), firstn_all.
Qed.

(** Reading a name the module binds, after Load. *)
Lemma loaded_lookup env g i x v :
  bindings env !! i = Some (x, v) →
  store_all g (bindings env) !! x = Some v.
Proof.
  intros Hi. apply store_all_lookup; [apply bindings_NoDup|].
  apply list_elem_of_lookup. by exists i.
Qed.

End Load.

(** ** The interpreter at work *)

(** The module body runs: in an empty process it binds [xml_dir] to the
    default. *)
Example load_runs :
  (match load (Process ∅ ∅) with
   | Ok (_, p) => globals p !! "xml_dir"
   | Raise _ => None
   end) = Some (VStr "../xml").
Proof. by vm_compute. Qed.

(** Statements can raise: [xml_dir = os.environ.get(...)] needs the
    [import os] before it, and [breathe_projects = ...] needs [xml_dir]. *)
Example xml_dir_needs_import :
  exec_stmt (Assign "xml_dir" xml_dir_rhs) (Process ∅ ∅) =
  Raise (NameError "os").
Proof. reflexivity. Qed.

Example breathe_projects_needs_xml_dir :
  exec_stmts [Import "os"; Assign "breathe_projects" breathe_projects_rhs]
    (Process ∅ ∅) = Raise (NameError "xml_dir").
Proof. by vm_compute. Qed.

Example environ_has_no_fetch :
  getattr VEnviron "fetch" (Process ∅ ∅) = Raise (AttributeError "fetch").
Proof. reflexivity. Qed.

(** A later duplicate key of a dict display replaces the value of the first
    one and keeps its place. *)
Example dict_display_duplicate :
  dict_display [("a", VInt 1); ("b", VInt 2); ("a", VInt 3)] =
  VDict [("a", VInt 3); ("b", VInt 2)].
Proof. reflexivity. Qed.

(** ** What Load leaves in the namespace *)

Section Loaded.

Implicit Types (g : gmap string value) (env : gmap string string).

Lemma loaded_elem env g x v :
  (x, v) ∈ bindings env → store_all g (bindings env) !! x = Some v.
Proof. intros Hin. by apply store_all_lookup; [apply bindings_NoDup|]. Qed.

Lemma targets_elem env x :
  x ∈ targets → ∃ v, (x, v) ∈ bindings env.
Proof.
  rewrite <- (targets_bindings env). intros ([x' v] & -> & Hin)%list_elem_of_fmap.
  by exists v.
Qed.


End Loaded.

(** Closes [store_all g (bindings env) !! x = Some ?v] for a literal [x]. *)
Ltac loaded := apply loaded_elem; unfold bindings; repeat constructor.

(** The source-mapping directory after Load, in any process. *)
Lemma load_source_dir (env : gmap string string) (g : gmap string value) :
  ∃ g' d,
    load (Process env g) = Ok (tt, Process env g') ∧
    g' !! "xml_dir" = Some (resolved_xml_dir env) ∧
    g' !! "breathe_projects" = Some (VDict d) ∧
    dict_getitem "LanceDB" d = Some (resolved_xml_dir env).
Proof.
  exists (store_all g (bindings env)), [("LanceDB", resolved_xml_dir env)].
  split; [apply load_ok|]. repeat split; loaded.
Qed.

(** * The configuration after Load *)

(** C1: in every process whose environment leaves DOXYGEN_XML_DIR unset,
    Load succeeds and the source-mapping directory, the value stored in
    [breathe_projects] under "LanceDB", is the default relative path
    "../xml" (and so is [xml_dir]). *)
Theorem load_xml_dir_unset (env : gmap string string) (g : gmap string value) :
  env !! "DOXYGEN_XML_DIR" = None →
  ∃ g' d,
    load (Process env g) = Ok (tt, Process env g') ∧
    g' !! "xml_dir" = Some (VStr "../xml") ∧
    g' !! "breathe_projects" = Some (VDict d) ∧
    dict_getitem "LanceDB" d = Some (VStr "../xml").
Proof.
  intros Hunset. destruct (load_source_dir env g) as (g' & d & Hload & Hx & Hbp & Hd).
  unfold resolved_xml_dir in Hx, Hd. rewrite Hunset in Hx, Hd.
  by exists g', d.
Qed.

Lemma load_xml_dir_unset_witness :
  (∅ : gmap string string) !! "DOXYGEN_XML_DIR" = None ∧
  ∃ g' d,
    load (Process ∅ ∅) = Ok (tt, Process ∅ g') ∧
    g' !! "xml_dir" = Some (VStr "../xml") ∧
    g' !! "breathe_projects" = Some (VDict d) ∧
    dict_getitem "LanceDB" d = Some (VStr "../xml").
Proof.
  split; [reflexivity|]. apply (load_xml_dir_unset ∅ ∅). reflexivity.
Defined.

(** C2: for every string [V], in every process whose environment sets
    DOXYGEN_XML_DIR to [V], Load succeeds and the source-mapping directory is
    the string [V] itself, character for character. *)
Theorem load_xml_dir_set (V : string) (env : gmap string string)
    (g : gmap string value) :
  env !! "DOXYGEN_XML_DIR" = Some V →
  ∃ g' d,
    load (Process env g) = Ok (tt, Process env g') ∧
    g' !! "xml_dir" = Some (VStr V) ∧
    g' !! "breathe_projects" = Some (VDict d) ∧
    dict_getitem "LanceDB" d = Some (VStr V).
Proof.
  intros Hset. destruct (load_source_dir env g) as (g' & d & Hload & Hx & Hbp & Hd).
  unfold resolved_xml_dir in Hx, Hd. rewrite Hset in Hx, Hd.
  by exists g', d.
Qed.

Lemma load_xml_dir_set_witness :
  ({[ "DOXYGEN_XML_DIR" := "  build/./docs/xml/ " ]} : gmap string string)
    !! "DOXYGEN_XML_DIR" = Some "  build/./docs/xml/ " ∧
  ∃ g' d,
    load (Process {[ "DOXYGEN_XML_DIR" := "  build/./docs/xml/ " ]} ∅) =
      Ok (tt, Process {[ "DOXYGEN_XML_DIR" := "  build/./docs/xml/ " ]} g') ∧
    g' !! "xml_dir" = Some (VStr "  build/./docs/xml/ ") ∧
    g' !! "breathe_projects" = Some (VDict d) ∧
    dict_getitem "LanceDB" d = Some (VStr "  build/./docs/xml/ ").
Proof.
  split; [reflexivity|].
  apply (load_xml_dir_set "  build/./docs/xml/ "
           {[ "DOXYGEN_XML_DIR" := "  build/./docs/xml/ " ]} ∅).
  reflexivity.
Defined.

(** C10: an empty value counts as set.  In every process whose environment
    sets DOXYGEN_XML_DIR to the empty string, Load resolves the
    source-mapping directory to the empty string, which is not the default
    "../xml". *)
Theorem load_xml_dir_empty (env : gmap string string) (g : gmap string value) :
  env !! "DOXYGEN_XML_DIR" = Some "" →
  ∃ g' d dir,
    load (Process env g) = Ok (tt, Process env g') ∧
    g' !! "breathe_projects" = Some (VDict d) ∧
    dict_getitem "LanceDB" d = Some dir ∧
    g' !! "xml_dir" = Some dir ∧
    dir = VStr "" ∧ dir ≠ VStr "../xml".
Proof.
  intros Hset. destruct (load_source_dir env g) as (g' & d & Hload & Hx & Hbp & Hd).
  unfold resolved_xml_dir in Hx, Hd. rewrite Hset in Hx, Hd.
  exists g', d, (VStr ""). by repeat split.
Qed.

Lemma load_xml_dir_empty_witness :
  ({[ "DOXYGEN_XML_DIR" := "" ]} : gmap string string)
    !! "DOXYGEN_XML_DIR" = Some "" ∧
  ∃ g' d dir,
    load (Process {[ "DOXYGEN_XML_DIR" := "" ]} ∅) =
      Ok (tt, Process {[ "DOXYGEN_XML_DIR" := "" ]} g') ∧
    g' !! "breathe_projects" = Some (VDict d) ∧
    dict_getitem "LanceDB" d = Some dir ∧
    g' !! "xml_dir" = Some dir ∧
    dir = VStr "" ∧ dir ≠ VStr "../xml".
Proof.
  split; [reflexivity|].
  apply (load_xml_dir_empty {[ "DOXYGEN_XML_DIR" := "" ]} ∅). reflexivity.
Defined.

(** C3: Load is a function of the environment.  In a fixed environment, a
    run of Load in any namespace succeeds and leaves the environment as it
    was; two runs bind every name of the module to equal objects, whatever
    the namespaces they started in; and a second run in the namespace the
    first one left behind gives that same namespace back. *)
Theorem load_deterministic (env : gmap string string) (g g' : gmap string value) :
  ∃ g1 g2,
    load (Process env g) = Ok (tt, Process env g1) ∧
    load (Process env g') = Ok (tt, Process env g2) ∧
    Forall (λ x, is_Some (g1 !! x) ∧ g1 !! x = g2 !! x) targets ∧
    load (Process env g1) = Ok (tt, Process env g1).
Proof.
  exists (store_all g (bindings env)), (store_all g' (bindings env)).
  split; [apply load_ok|]. split; [apply load_ok|]. split.
  - apply Forall_forall. intros x [v Hv]%(targets_elem env).
    rewrite !(loaded_elem _ _ _ _ Hv). eauto.
  - by rewrite load_ok, store_all_idemp.
Qed.

#[local] Instance VStr_inj : Inj (=) (=) VStr.
Proof. by intros s1 s2 [= ->]. Qed.

(** C4: after Load, in every process, [extensions] is a list that is not
    empty and holds no object twice: any two distinct positions hold distinct
    identifiers. *)
Theorem load_extensions (env : gmap string string) (g : gmap string value) :
  ∃ g' exts,
    load (Process env g) = Ok (tt, Process env g') ∧
    g' !! "extensions" = Some (VList exts) ∧
    exts ≠ [] ∧
    NoDup exts ∧
    ∀ i j a b, exts !! i = Some a → exts !! j = Some b → i ≠ j → a ≠ b.
Proof.
  set (names := ["breathe"; "sphinx.ext.autodoc"; "sphinx.ext.intersphinx";
                 "sphinx.ext.viewcode"]).
  assert (Hnd : NoDup (VStr <$> names)).
  { apply (NoDup_fmap_2 VStr), (bool_decide_unpack (NoDup names)).
    by vm_compute. }
  exists (store_all g (bindings env)), (VStr <$> names).
  split; [apply load_ok|]. split; [loaded|]. split; [done|]. split; [done|].
  intros i j a b Hi Hj Hij ->. apply Hij.
  by apply (NoDup_lookup _ _ _ _ Hnd Hi Hj).
Qed.

(** C5: after Load, [intersphinx_mapping] has the key "python", and the
    base URL stored with it is the literal "https://docs.python.org/3"
    (paired with no local inventory). *)
Theorem load_intersphinx (env : gmap string string) (g : gmap string value) :
  ∃ g' d inventory,
    load (Process env g) = Ok (tt, Process env g') ∧
    g' !! "intersphinx_mapping" = Some (VDict d) ∧
    dict_getitem "python" d =
      Some (VTuple [VStr "https://docs.python.org/3"; inventory]).
Proof.
  exists (store_all g (bindings env)),
    [("python", VTuple [VStr "https://docs.python.org/3"; VNone])], VNone.
  split; [apply load_ok|]. split; [loaded | reflexivity].
Qed.

(** C6: after Load, in every process, [project], [copyright], [author] and
    [release] are bound to strings, none of them empty. *)
Theorem load_identity (env : gmap string string) (g : gmap string value) :
  ∃ g' name owner writer version,
    load (Process env g) = Ok (tt, Process env g') ∧
    g' !! "project" = Some (VStr name) ∧
    g' !! "copyright" = Some (VStr owner) ∧
    g' !! "author" = Some (VStr writer) ∧
    g' !! "release" = Some (VStr version) ∧
    name ≠ "" ∧ owner ≠ "" ∧ writer ≠ "" ∧ version ≠ "".
Proof.
  exists (store_all g (bindings env)), "LanceDB C API",
    "2025, The LanceDB Authors", "The LanceDB Authors", "0.1.0".
  split; [apply load_ok|]. do 4 (split; [loaded|]). done.
Qed.


(** C9: after Load, in every process, [breathe_default_project] is
    "LanceDB", that name is a key of [breathe_projects], and
    [breathe_projects] has exactly one entry. *)
Theorem load_default_project (env : gmap string string) (g : gmap string value) :
  ∃ g' d,
    load (Process env g) = Ok (tt, Process env g') ∧
    g' !! "breathe_default_project" = Some (VStr "LanceDB") ∧
    g' !! "breathe_projects" = Some (VDict d) ∧
    is_Some (dict_getitem "LanceDB" d) ∧
    length d = 1.
Proof.
  exists (store_all g (bindings env)), [("LanceDB", resolved_xml_dir env)].
  split; [apply load_ok|]. do 2 (split; [loaded|]). split; [|done].
  by exists (resolved_xml_dir env).
Qed.

(** * Further properties of the module body *)

Section Namespace.

Implicit Types (g : gmap string value) (l : list (string * value)).

(** The names a namespace holds after a list of bindings is stored. *)
Lemma dom_store_all g l :
  dom (store_all g l) = dom g ∪ list_to_set l.*1.
Proof.
  rewrite store_all_union, dom_union_L, dom_list_to_map_L, fmap_reverse.
  apply set_eq. intros x.
  rewrite !elem_of_union, !elem_of_list_to_set, elem_of_reverse. tauto.
Qed.

(** Bindings stored later hide the earlier ones under the same names. *)
Lemma store_all_absorb g l l' :
  l.*1 = l'.*1 → store_all (store_all g l) l' = store_all g l'.
Proof.
  intros Hkeys. apply map_eq. intros x. rewrite !store_all_union.
  destruct ((list_to_map (reverse l') : gmap string value) !! x)
    as [v|] eqn:Hx.
  - by rewrite !(lookup_union_Some_l _ _ _ _ Hx).
  - rewrite !(lookup_union_r _ _ _ Hx). apply lookup_union_r.
    apply not_elem_of_list_to_map_1. apply not_elem_of_list_to_map_2 in Hx.
    rewrite fmap_reverse, elem_of_reverse in Hx |- *. by rewrite Hkeys.
Qed.

Lemma resolved_xml_dir_default (env : gmap string string) :
  resolved_xml_dir env = VStr (default "../xml" (env !! "DOXYGEN_XML_DIR")).
Proof. unfold resolved_xml_dir. by destruct (env !! "DOXYGEN_XML_DIR"). Qed.

End Namespace.

(** X1: Load leaves alone every name it does not assign.  A name that is
    the target of no statement of the module holds, after every prefix of
    the module body and when Load returns, what it held (or did not hold)
    before. *)
Theorem load_frame (env : gmap string string) (g : gmap string value)
    (x : string) :
  x ∉ targets →
  (∀ n, ∃ gn, load_upto n (Process env g) = Ok (tt, Process env gn) ∧
              gn !! x = g !! x) ∧
  ∃ g', load (Process env g) = Ok (tt, Process env g') ∧ g' !! x = g !! x.
Proof.
  intros Hx. split.
  - intros n. eexists. split; [apply load_upto_ok|].
    apply store_all_lookup_other. rewrite fmap_take, targets_bindings.
    intros Hin. apply Hx. rewrite <- (take_drop n targets).
    apply elem_of_app. by left.
  - eexists. split; [apply load_ok|].
    apply store_all_lookup_other. by rewrite targets_bindings.
Qed.

Lemma load_frame_witness :
  ("__file__" ∉ targets) ∧
  ∃ g', load (Process ∅ {[ "__file__" := VStr "docs/conf.py" ]}) =
          Ok (tt, Process ∅ g') ∧
        g' !! "__file__" =
          ({[ "__file__" := VStr "docs/conf.py" ]} : gmap string value)
            !! "__file__".
Proof.
  assert (Hx : "__file__" ∉ targets).
  { apply (bool_decide_unpack ("__file__" ∉ targets)). by vm_compute. }
  split; [exact Hx|].
  exact (proj2 (load_frame ∅ {[ "__file__" := VStr "docs/conf.py" ]}
                  "__file__" Hx)).
Defined.

(** X2: the names in the namespace.  After the first [n] statements the
    namespace holds the names it started with and the targets of those [n]
    statements, no other; after Load, the names it started with and the
    fifteen targets of the module. *)
Theorem load_dom (env : gmap string string) (g : gmap string value) :
  (∀ n, ∃ gn, load_upto n (Process env g) = Ok (tt, Process env gn) ∧
              dom gn = dom g ∪ list_to_set (take n targets)) ∧
  ∃ g', load (Process env g) = Ok (tt, Process env g') ∧
        dom g' = dom g ∪ list_to_set targets ∧
        size (list_to_set targets : gset string) = 15.
Proof.
  split.
  - intros n. eexists. split; [apply load_upto_ok|].
    by rewrite dom_store_all, fmap_take, targets_bindings.
  - eexists. split; [apply load_ok|]. split.
    + by rewrite dom_store_all, targets_bindings.
    + by vm_compute.
Qed.

(** X3: what Load can tell apart.  Run in one namespace under two
    environments, Load leaves equal namespaces exactly when DOXYGEN_XML_DIR,
    with "../xml" standing in for an unset variable, has the same value in
    both; so an environment that sets the variable to "../xml" and one that
    leaves it unset are not told apart. *)
Theorem load_same_namespace_iff (env env' : gmap string string)
    (g : gmap string value) :
  ∃ g1 g2,
    load (Process env g) = Ok (tt, Process env g1) ∧
    load (Process env' g) = Ok (tt, Process env' g2) ∧
    (g1 = g2 ↔
     default "../xml" (env !! "DOXYGEN_XML_DIR") =
     default "../xml" (env' !! "DOXYGEN_XML_DIR")).
Proof.
  exists (store_all g (bindings env)), (store_all g (bindings env')).
  split; [apply load_ok|]. split; [apply load_ok|]. split.
  - intros Heq.
    assert (Hdir : store_all g (bindings env) !! "xml_dir" =
                   store_all g (bindings env') !! "xml_dir") by by rewrite Heq.
    rewrite (loaded_lookup env g 6 "xml_dir" (resolved_xml_dir env)) in Hdir
      by reflexivity.
    rewrite (loaded_lookup env' g 6 "xml_dir" (resolved_xml_dir env')) in Hdir
      by reflexivity.
    rewrite !resolved_xml_dir_default in Hdir. by simplify_eq.
  - intros Heq. unfold bindings. by rewrite !resolved_xml_dir_default, Heq.
Qed.

(** X4: a later Load wins.  Running Load again in the namespace an earlier
    Load left behind, under an environment that may have changed since,
    gives the namespace a single Load under the later environment gives:
    nothing of the earlier directory stays. *)
Theorem load_reload (env env' : gmap string string) (g : gmap string value) :
  ∃ g1 g2,
    load (Process env g) = Ok (tt, Process env g1) ∧
    load (Process env' g1) = Ok (tt, Process env' g2) ∧
    load (Process env' g) = Ok (tt, Process env' g2).
Proof.
  exists (store_all g (bindings env)), (store_all g (bindings env')).
  split; [apply load_ok|]. split; [|apply load_ok].
  rewrite load_ok. by rewrite store_all_absorb.
Qed.

(** X6: no name is assigned twice while Load runs.  The fifteen statements
    of the module have these fifteen targets, in this order and pairwise
    distinct, so each name is the target of exactly one statement; and the
    object that statement [i] binds to its target is the object the target
    holds after every longer prefix of the module body, and when Load
    returns. *)
Theorem load_write_once :
  targets =
    ["os"; "project"; "copyright"; "author"; "release"; "extensions";
     "xml_dir"; "breathe_projects"; "breathe_default_project";
     "templates_path"; "exclude_patterns"; "html_theme"; "html_static_path";
     "html_theme_options"; "intersphinx_mapping"] ∧
  NoDup targets ∧
  ∀ (env : gmap string string) (g : gmap string value) i x,
    targets !! i = Some x →
    ∃ v,
      (∀ j, i < j →
         ∃ gj, load_upto j (Process env g) = Ok (tt, Process env gj) ∧
               gj !! x = Some v) ∧
      ∃ g', load (Process env g) = Ok (tt, Process env g') ∧ g' !! x = Some v.
Proof.
  split; [reflexivity|].
  split; [apply targets_NoDup|]. intros env g i x Hi.
  rewrite <- (targets_bindings env), list_lookup_fmap in Hi.
  destruct (bindings env !! i) as [[x' v]|] eqn:Hb; simplify_eq/=.
  exists v. split.
  - intros j Hij. eexists. split; [apply load_upto_ok|].
    by apply (store_all_take_lookup _ _ i); [apply bindings_NoDup| |].
  - eexists. split; [apply load_ok|]. by apply (loaded_lookup _ _ i).
Qed.
